(** * Mergington High School activities API

    A shallow embedding of [src/models.py], [src/db.py] and [src/app.py]:
    the two tables and their mapped classes, the session used by the
    handlers, the four operations (startup seeding, listing, sign-up,
    unregister), and what these do on a store. *)

From Stdlib Require Import ZArith List String Bool Lia.
Import ListNotations.
Local Open Scope Z_scope.

(** ** models.py: the rows *)

(** [class Participant(SQLModel, table=True)].  A stored row always carries
    its primary key; [activity_id] is a nullable foreign key; [created_at]
    is the value [datetime.utcnow] had when the object was built. *)
Module Participant.
Record t : Type := mk {
  id : Z;
  email : string;
  activity_id : option Z;
  created_at : Z
}.
End Participant.

(** [class Activity(SQLModel, table=True)].  [participants] is an ORM
    relationship, not a column: see [relationships] below. *)
Module Activity.
Record t : Type := mk {
  id : Z;
  name : string;
  description : option string;
  schedule : option string;
  max_participants : option Z
}.
End Activity.

(** ** db.py *)

(** The two tables, each in rowid order. *)
Record Store : Type := mkStore {
  activity : list Activity.t;
  participant : list Participant.t
}.

(** What the engine points at when the process starts: a database file
    without the schema, or one that already holds both tables. *)
Inductive Database : Type :=
| NoSchema
| Schema (st : Store).

(** [SQLModel.metadata.create_all(engine)]: issues CREATE TABLE for the
    tables that are missing and touches no row.  It works on the table
    metadata and does not configure the mappers. *)
Definition create_db_and_tables (db : Database) : Store :=
  match db with
  | NoSchema => mkStore [] []
  | Schema st => st
  end.

(** ** Exceptions and the session *)

Inductive Exn : Type :=
| HTTPException (status_code : Z) (detail : string)
| InvalidRequestError
| MultipleResultsFound
| AttributeError (obj attr : string)
| OperationalError.

(** Status FastAPI answers with: an [HTTPException] carries its own, any
    other exception leaving a handler is a 500. *)
Definition http_status (e : Exn) : Z :=
  match e with
  | HTTPException code _ => code
  | _ => 500
  end.

(** A computation inside [with get_session() as session]: it reads and
    commits to the store, and ends in a value or in an exception.  The
    store it returns is what has been committed when it ends. *)
Definition Session (A : Type) : Type := Store -> Store * (Exn + A).

Definition ret {A} (x : A) : Session A := fun st => (st, inr x).

Definition raise {A} (e : Exn) : Session A := fun st => (st, inl e).

Definition bind {A B} (m : Session A) (k : A -> Session B) : Session B :=
  fun st =>
    match m st with
    | (st', inr x) => k x st'
    | (st', inl e) => (st', inl e)
    end.

Definition lift {A} (r : Exn + A) : Session A := fun st => (st, r).

Declare Scope session_scope.
Delimit Scope session_scope with session.
Notation "x <- m ;; k" := (bind m (fun x => k))
  (at level 100, m at next level, right associativity) : session_scope.
Notation "m ;; k" := (bind m (fun _ => k))
  (at level 100, right associativity) : session_scope.
Local Open Scope session_scope.

(** ** models.py: the mapped classes *)

Inductive Model : Type :=
| ParticipantModel
| ActivityModel.

(** The columns each class declares. *)
Definition columns (m : Model) : list string :=
  match m with
  | ParticipantModel => ["id"; "email"; "activity_id"; "created_at"]%string
  | ActivityModel =>
      ["id"; "name"; "description"; "schedule"; "max_participants"]%string
  end.

(** A [Relationship(back_populates=...)] that the metaclass found in a
    class body and mapped. *)
Record MappedRelationship : Type := mkRelationship {
  rel_key : string;
  rel_target : Model;
  rel_back_populates : string
}.

(** The relationships the two mappers hold.  [Activity] declares
    [participants: List[Participant] = Relationship(back_populates=
    "activity")] in its body (line 19).  [Participant] declares none. *)
Definition relationships (m : Model) : list MappedRelationship :=
  match m with
  | ParticipantModel => []
  | ActivityModel => [mkRelationship "participants" ParticipantModel "activity"]
  end.

(** [Participant.activity = Relationship(back_populates="participants")]
    (line 22) runs after the class was built: the assignment stores the
    relationship description as a plain class attribute and adds nothing
    to the mapper. *)
Definition attributes_set_on_built_class : list (Model * string) :=
  [(ParticipantModel, "activity"%string)].

(** The properties of a mapper: its columns and its relationships. *)
Definition has_property (m : Model) (key : string) : bool :=
  existsb (String.eqb key) (columns m ++ map rel_key (relationships m)).

(** Mapper configuration, which SQLAlchemy runs before the first
    statement over a mapped class and before the first object of one is
    built: every [back_populates] has to name a property of the target
    mapper.  A failure is raised again at every later attempt. *)
Definition configure_mappers : Exn + unit :=
  if forallb
       (fun m => forallb
                   (fun r => has_property (rel_target r)
                               (rel_back_populates r))
                   (relationships m))
       [ParticipantModel; ActivityModel]
  then inr tt
  else inl InvalidRequestError.

(** ** What the session offers *)

(** The object [session.exec(select(Model)...)] returns for a selection
    of one model: the rows selected, behind the methods of SQLAlchemy's
    [ScalarResult]. *)
Module ScalarResult.
Definition all {A} (rows : list A) : list A := rows.

Definition first {A} (rows : list A) : option A := hd_error rows.

Definition one_or_none {A} (rows : list A) : Exn + option A :=
  match rows with
  | [] => inr None
  | [x] => inr (Some x)
  | _ :: _ :: _ => inl MultipleResultsFound
  end.

(** [ScalarResult] has [all], [first], [one], [one_or_none], [fetchall],
    [fetchmany], [partitions] and [unique], and no [count]: that method
    belongs to the legacy [Query] object that [session.query] returns.
    Python raises AttributeError at the attribute lookup, whatever rows
    were selected. *)
Definition count {A} (rows : list A) : Exn + Z :=
  inl (AttributeError "ScalarResult" "count").
End ScalarResult.

(** SQL equality on a nullable integer column against a value: NULL is
    equal to nothing. *)
Definition column_eqb (c : option Z) (v : Z) : bool :=
  match c with
  | Some x => x =? v
  | None => false
  end.

(** [session.exec(select(Activity).where(...))]: the mappers are
    configured, then the rows are selected. *)
Definition exec_activity (where_ : Activity.t -> bool)
  : Session (list Activity.t) :=
  lift configure_mappers ;;
  fun st => (st, inr (filter where_ (activity st))).

(** [session.exec(select(Participant).where(...))] *)
Definition exec_participant (where_ : Participant.t -> bool)
  : Session (list Participant.t) :=
  lift configure_mappers ;;
  fun st => (st, inr (filter where_ (participant st))).

(** What the handlers take from outside at the moment an object is built
    and inserted: the clock reading, and the unused key SQLite's random
    search finds when the largest key is in use ([None] when the search
    gives up). *)
Record Env : Type := mkEnv {
  utcnow : Z;
  random_rowid : option Z
}.

(** The largest key of a rowid table, [2^63 - 1]. *)
Definition largest_rowid : Z := 9223372036854775807.

(** The key SQLite gives a row inserted without one: 1 in an empty table,
    otherwise one more than the largest key in use; when that is the
    largest key there is, a random unused one, and the insert fails when
    none is found. *)
Definition next_rowid (random_rowid : option Z) (ids : list Z) : Exn + Z :=
  match ids with
  | [] => inr 1
  | i :: rest =>
      let largest := fold_right Z.max i rest in
      if largest <? largest_rowid then inr (largest + 1)
      else match random_rowid with
           | Some k => inr k
           | None => inl OperationalError
           end
  end.

(** A row put at its place in rowid order. *)
Fixpoint insert_row {A} (key : A -> Z) (r : A) (rows : list A) : list A :=
  match rows with
  | [] => [r]
  | x :: rest =>
      if key r <? key x then r :: x :: rest
      else x :: insert_row key r rest
  end.

(** [session.add(Participant(email=..., activity_id=...))] followed by the
    commit that flushes it; the result is the object with its key loaded.
    Building the object configures the mappers. *)
Definition add_participant (env : Env) (email : string) (activity_id : Z)
  : Session Participant.t :=
  lift configure_mappers ;;
  fun st =>
    match next_rowid (random_rowid env)
            (map Participant.id (participant st)) with
    | inl e => (st, inl e)
    | inr id =>
        let p := Participant.mk id email (Some activity_id) (utcnow env) in
        (mkStore (activity st) (insert_row Participant.id p (participant st)),
         inr p)
    end.

(** [session.add(Activity(...)); session.commit()] *)
Definition add_activity (env : Env) (name : string)
    (description schedule : option string) (max_participants : option Z)
  : Session Activity.t :=
  lift configure_mappers ;;
  fun st =>
    match next_rowid (random_rowid env) (map Activity.id (activity st)) with
    | inl e => (st, inl e)
    | inr id =>
        let a := Activity.mk id name description schedule max_participants in
        (mkStore (insert_row Activity.id a (activity st)) (participant st),
         inr a)
    end.

(** [session.delete(participant); session.commit()]: DELETE by primary
    key. *)
Definition delete_participant (p : Participant.t) : Session unit :=
  fun st =>
    (mkStore (activity st)
       (filter (fun q => negb (Participant.id q =? Participant.id p))
          (participant st)),
     inr tt).

(** ** app.py *)

(** One value of the [_legacy_activities] dict. *)
Record LegacyPayload : Type := mkLegacy {
  legacy_description : string;
  legacy_schedule : string;
  legacy_max_participants : Z;
  legacy_participants : list string
}.

(** The dict literal, in insertion order (the order [.items()] yields). *)
Definition _legacy_activities : list (string * LegacyPayload) :=
  [ ("Chess Club"%string,
     mkLegacy "Learn strategies and compete in chess tournaments"
       "Fridays, 3:30 PM - 5:00 PM" 12
       ["michael@mergington.edu"; "daniel@mergington.edu"]%string);
    ("Programming Class"%string,
     mkLegacy "Learn programming fundamentals and build software projects"
       "Tuesdays and Thursdays, 3:30 PM - 4:30 PM" 20
       ["emma@mergington.edu"; "sophia@mergington.edu"]%string);
    ("Gym Class"%string,
     mkLegacy "Physical education and sports activities"
       "Mondays, Wednesdays, Fridays, 2:00 PM - 3:00 PM" 30
       ["john@mergington.edu"; "olivia@mergington.edu"]%string);
    ("Soccer Team"%string,
     mkLegacy "Join the school soccer team and compete in matches"
       "Tuesdays and Thursdays, 4:00 PM - 5:30 PM" 22
       ["liam@mergington.edu"; "noah@mergington.edu"]%string);
    ("Basketball Team"%string,
     mkLegacy "Practice and play basketball with the school team"
       "Wednesdays and Fridays, 3:30 PM - 5:00 PM" 15
       ["ava@mergington.edu"; "mia@mergington.edu"]%string);
    ("Art Club"%string,
     mkLegacy "Explore your creativity through painting and drawing"
       "Thursdays, 3:30 PM - 5:00 PM" 15
       ["amelia@mergington.edu"; "harper@mergington.edu"]%string);
    ("Drama Club"%string,
     mkLegacy "Act, direct, and produce plays and performances"
       "Mondays and Wednesdays, 4:00 PM - 5:30 PM" 20
       ["ella@mergington.edu"; "scarlett@mergington.edu"]%string);
    ("Math Club"%string,
     mkLegacy "Solve challenging problems and participate in math competitions"
       "Tuesdays, 3:30 PM - 4:30 PM" 10
       ["james@mergington.edu"; "benjamin@mergington.edu"]%string);
    ("Debate Team"%string,
     mkLegacy "Develop public speaking and argumentation skills"
       "Fridays, 4:00 PM - 5:30 PM" 12
       ["charlotte@mergington.edu"; "henry@mergington.edu"]%string) ].

(** One element of the list [get_activities] returns. *)
Module ActivityJson.
Record t : Type := mk {
  id : Z;
  name : string;
  description : option string;
  schedule : option string;
  max_participants : option Z;
  participants : list string
}.
End ActivityJson.

(** The body of [for a in activities] in [get_activities]. *)
Fixpoint list_each (activities : list Activity.t)
  : Session (list ActivityJson.t) :=
  match activities with
  | [] => ret []
  | a :: rest =>
      rows <- exec_participant
                (fun p => column_eqb (Participant.activity_id p)
                            (Activity.id a)) ;;
      let participants := ScalarResult.all rows in
      result <- list_each rest ;;
      ret (ActivityJson.mk (Activity.id a) (Activity.name a)
             (Activity.description a) (Activity.schedule a)
             (Activity.max_participants a)
             (map Participant.email participants) :: result)
  end.

(** [GET /activities] *)
Definition get_activities : Session (list ActivityJson.t) :=
  rows <- exec_activity (fun _ => true) ;;
  list_each (ScalarResult.all rows).

(** The dict a successful sign-up returns. *)
Record SignupReply : Type := mkSignupReply {
  message : string;
  participant_id : Z
}.

(** [POST /activities/{activity_name}/signup]; [env] is what the request
    finds outside when the participant object is built and inserted. *)
Definition signup_for_activity (env : Env) (activity_name email : string)
  : Session SignupReply :=
  rows <- exec_activity (fun a => String.eqb (Activity.name a) activity_name) ;;
  found <- lift (ScalarResult.one_or_none rows) ;;
  match found with
  | None => raise (HTTPException 404 "Activity not found")
  | Some activity =>
      rows <- exec_participant
                (fun p => column_eqb (Participant.activity_id p)
                            (Activity.id activity)
                          && String.eqb (Participant.email p) email) ;;
      current <- lift (ScalarResult.one_or_none rows) ;;
      match current with
      | Some _ => raise (HTTPException 400 "Student is already signed up")
      | None =>
          (match Activity.max_participants activity with
           | Some cap =>
               rows <- exec_participant
                         (fun p => column_eqb (Participant.activity_id p)
                                     (Activity.id activity)) ;;
               count <- lift (ScalarResult.count rows) ;;
               if cap <=? count
               then raise (HTTPException 400 "Activity is full")
               else ret tt
           | None => ret tt
           end) ;;
          participant <- add_participant env email (Activity.id activity) ;;
          ret (mkSignupReply
                 ("Signed up " ++ email ++ " for " ++ activity_name)%string
                 (Participant.id participant))
      end
  end.

(** [DELETE /activities/{activity_name}/unregister] *)
Definition unregister_from_activity (activity_name email : string)
  : Session string :=
  rows <- exec_activity (fun a => String.eqb (Activity.name a) activity_name) ;;
  found <- lift (ScalarResult.one_or_none rows) ;;
  match found with
  | None => raise (HTTPException 404 "Activity not found")
  | Some activity =>
      rows <- exec_participant
                (fun p => column_eqb (Participant.activity_id p)
                            (Activity.id activity)
                          && String.eqb (Participant.email p) email) ;;
      found <- lift (ScalarResult.one_or_none rows) ;;
      match found with
      | None =>
          raise (HTTPException 400 "Student is not signed up for this activity")
      | Some participant =>
          delete_participant participant ;;
          ret ("Unregistered " ++ email ++ " from " ++ activity_name)%string
      end
  end.

(** The inner loop of the migration: one participant per legacy email.
    [env k] is what the [k]-th object built since the migration began
    finds outside; the result is the number of objects built so far. *)
Fixpoint migrate_participants (env : nat -> Env) (k : nat) (activity_id : Z)
    (emails : list string) : Session nat :=
  match emails with
  | [] => ret k
  | email :: rest =>
      add_participant (env k) email activity_id ;;
      migrate_participants env (S k) activity_id rest
  end.

(** The outer loop: [for name, payload in _legacy_activities.items()]. *)
Fixpoint migrate (env : nat -> Env) (k : nat)
    (items : list (string * LegacyPayload)) : Session unit :=
  match items with
  | [] => ret tt
  | (name, payload) :: rest =>
      a <- add_activity (env k) name (Some (legacy_description payload))
             (Some (legacy_schedule payload))
             (Some (legacy_max_participants payload)) ;;
      k' <- migrate_participants env (S k) (Activity.id a)
              (legacy_participants payload) ;;
      migrate env k' rest
  end.

(** The session part of [on_startup]. *)
Definition migrate_if_empty (env : nat -> Env) : Session unit :=
  rows <- exec_activity (fun _ => true) ;;
  match ScalarResult.first rows with
  | None => migrate env 0%nat _legacy_activities
  | Some _ => ret tt
  end.

(** [@app.on_event("startup")]: the schema is created, then the session
    part runs; the result is the store startup leaves and how it ended. *)
Definition on_startup (env : nat -> Env) (db : Database)
  : Store * (Exn + unit) :=
  migrate_if_empty env (create_db_and_tables db).

(** ** Vocabulary of the properties *)

(** The conditions of the handlers' selections. *)
Definition named (activity_name : string) (a : Activity.t) : bool :=
  String.eqb (Activity.name a) activity_name.

Definition of_activity (a : Activity.t) (p : Participant.t) : bool :=
  column_eqb (Participant.activity_id p) (Activity.id a).

Definition signed_up (a : Activity.t) (email : string) (p : Participant.t)
  : bool :=
  of_activity a p && String.eqb (Participant.email p) email.

(** Participants enrolled in an activity: the rows sign-up's capacity
    check selects. *)
Definition enrolled (a : Activity.t) (st : Store) : Z :=
  Z.of_nat (List.length (filter (of_activity a) (participant st))).

(** The capacity invariant of the data model. *)
Definition within_capacity (st : Store) : Prop :=
  forall a cap,
    In a (activity st) -> Activity.max_participants a = Some cap ->
    enrolled a st <= cap.

Definition within_capacityb (st : Store) : bool :=
  forallb (fun a => match Activity.max_participants a with
                    | Some cap => enrolled a st <=? cap
                    | None => true
                    end)
    (activity st).

(** Stores the application can be in when it is started on the database
    [db]: the store the first startup leaves, and every store a restart
    or a request leads to from there. *)
Inductive reachable (db : Database) : Store -> Prop :=
| reach_start env :
    reachable db (fst (on_startup env db))
| reach_restart env st :
    reachable db st -> reachable db (fst (on_startup env (Schema st)))
| reach_listing st :
    reachable db st -> reachable db (fst (get_activities st))
| reach_signup env activity_name email st :
    reachable db st ->
    reachable db (fst (signup_for_activity env activity_name email st))
| reach_unregister activity_name email st :
    reachable db st ->
    reachable db (fst (unregister_from_activity activity_name email st)).

(** Stores used as examples: databases that hold rows already when the
    application is pointed at them. *)

(** A board with one activity of unlimited capacity and one of capacity
    2 that has both places taken. *)
Definition two_activities : Store :=
  mkStore
    [ Activity.mk 1 "Open Mic" (Some "Bring a song"%string) None None;
      Activity.mk 2 "Book Club" None (Some "Mondays"%string) (Some 2) ]
    [ Participant.mk 1 "ann@mergington.edu" (Some 2) 0;
      Participant.mk 2 "bob@mergington.edu" (Some 2) 0;
      Participant.mk 3 "ann@mergington.edu" (Some 1) 0 ].

(** A board that holds the first legacy activity with its two
    participants. *)
Definition chess_club : Store :=
  mkStore
    [ Activity.mk 1 "Chess Club"
        (Some "Learn strategies and compete in chess tournaments"%string)
        (Some "Fridays, 3:30 PM - 5:00 PM"%string) (Some 12) ]
    [ Participant.mk 1 "michael@mergington.edu" (Some 1) 0;
      Participant.mk 2 "daniel@mergington.edu" (Some 1) 0 ].

(** An environment for the examples. *)
Definition noon : Env := mkEnv 43200 None.

(** * Properties *)

(** ** The mappers *)

(** The back reference of [Activity.participants] names an attribute
    that was set on the built class and is no property of the
    [Participant] mapper. *)
Lemma back_reference_unmapped :
  In (ParticipantModel, "activity"%string) attributes_set_on_built_class /\
  has_property ParticipantModel "activity" = false.
Proof. split; [left; reflexivity|reflexivity]. Qed.

Lemma configure_mappers_fails : configure_mappers = inl InvalidRequestError.
Proof. reflexivity. Qed.

Lemma exec_activity_raises (where_ : Activity.t -> bool) (st : Store) :
  exec_activity where_ st = (st, inl InvalidRequestError).
Proof.
  unfold exec_activity, bind, lift. rewrite configure_mappers_fails.
  reflexivity.
Qed.

(** ** The handlers *)

Lemma get_activities_raises (st : Store) :
  get_activities st = (st, inl InvalidRequestError).
Proof.
  unfold get_activities, bind. rewrite exec_activity_raises. reflexivity.
Qed.

Lemma signup_raises (env : Env) (activity_name email : string) (st : Store) :
  signup_for_activity env activity_name email st
  = (st, inl InvalidRequestError).
Proof.
  unfold signup_for_activity, bind. rewrite exec_activity_raises.
  reflexivity.
Qed.

Lemma unregister_raises (activity_name email : string) (st : Store) :
  unregister_from_activity activity_name email st
  = (st, inl InvalidRequestError).
Proof.
  unfold unregister_from_activity, bind. rewrite exec_activity_raises.
  reflexivity.
Qed.

Lemma on_startup_raises (env : nat -> Env) (db : Database) :
  on_startup env db = (create_db_and_tables db, inl InvalidRequestError).
Proof.
  unfold on_startup, migrate_if_empty, bind. rewrite exec_activity_raises.
  reflexivity.
Qed.

Lemma within_capacityb_sound (st : Store) :
  within_capacityb st = true -> within_capacity st.
Proof.
  unfold within_capacityb. rewrite forallb_forall. intros H a cap Ha Hcap.
  specialize (H a Ha). rewrite Hcap in H. apply Z.leb_le. exact H.
Qed.

(** ** Sign-up *)

(** C1 (the code departs from the claim).  "Open Mic" exists on
    [two_activities], has no capacity and does not have cy@ signed up;
    "Chess Club" exists on [chess_club], has 2 of its 12 places taken and
    does not have newcomer@ signed up.  Both sign-ups end in the
    InvalidRequestError of the activity lookup, which the server answers
    with status 500: no row is inserted and no confirmation returned. *)
Theorem signup_below_capacity_raises (env : Env) :
  (exists a,
     filter (named "Open Mic") (activity two_activities) = [a] /\
     filter (signed_up a "cy@mergington.edu") (participant two_activities)
     = [] /\
     Activity.max_participants a = None /\
     signup_for_activity env "Open Mic" "cy@mergington.edu" two_activities
     = (two_activities, inl InvalidRequestError))
  /\
  (exists a,
     filter (named "Chess Club") (activity chess_club) = [a] /\
     filter (signed_up a "newcomer@mergington.edu") (participant chess_club)
     = [] /\
     Activity.max_participants a = Some 12 /\
     enrolled a chess_club = 2 /\
     signup_for_activity env "Chess Club" "newcomer@mergington.edu"
       chess_club
     = (chess_club, inl InvalidRequestError))
  /\
  http_status InvalidRequestError = 500.
Proof.
  split; [|split].
  - eexists. split; [vm_compute; reflexivity|].
    repeat split; try apply signup_raises; vm_compute; reflexivity.
  - eexists. split; [vm_compute; reflexivity|].
    repeat split; try apply signup_raises; vm_compute; reflexivity.
  - reflexivity.
Qed.

(** C2 (the code departs from the claim).  On [two_activities] "Book
    Club" has capacity 2 and 2 participants, and cy@ is not one of them;
    the sign-up of cy@ leaves the store as it is but ends in the
    InvalidRequestError of the activity lookup, status 500, not in the
    400 "Activity is full". *)
Theorem signup_full_raises (env : Env) :
  exists a,
    filter (named "Book Club") (activity two_activities) = [a] /\
    filter (signed_up a "cy@mergington.edu") (participant two_activities)
    = [] /\
    Activity.max_participants a = Some 2 /\
    enrolled a two_activities = 2 /\
    signup_for_activity env "Book Club" "cy@mergington.edu" two_activities
    = (two_activities, inl InvalidRequestError) /\
    http_status InvalidRequestError = 500.
Proof.
  eexists. split; [vm_compute; reflexivity|].
  repeat split; try apply signup_raises; vm_compute; reflexivity.
Qed.

(** C3 (the code departs from the claim).  No activity of
    [two_activities] is named "Chess"; the sign-up for it leaves the
    store as it is but ends in the InvalidRequestError of the activity
    lookup, status 500, not in the 404 "Activity not found". *)
Theorem signup_unknown_activity_raises (env : Env) :
  ~ In "Chess"%string (map Activity.name (activity two_activities)) /\
  signup_for_activity env "Chess" "ann@mergington.edu" two_activities
  = (two_activities, inl InvalidRequestError) /\
  http_status InvalidRequestError = 500 /\
  http_status (HTTPException 404 "Activity not found") = 404.
Proof.
  split; [simpl; intuition discriminate|].
  split; [apply signup_raises|]. split; reflexivity.
Qed.

(** C4 (the code departs from the claim).  On [two_activities] ann@ is
    signed up for "Book Club"; signing her up again leaves the store as
    it is but ends in the InvalidRequestError of the activity lookup,
    status 500, not in the 400 "Student is already signed up". *)
Theorem signup_duplicate_raises (env : Env) :
  exists a p,
    filter (named "Book Club") (activity two_activities) = [a] /\
    filter (signed_up a "ann@mergington.edu") (participant two_activities)
    = [p] /\
    signup_for_activity env "Book Club" "ann@mergington.edu" two_activities
    = (two_activities, inl InvalidRequestError) /\
    http_status InvalidRequestError = 500.
Proof.
  do 2 eexists. split; [vm_compute; reflexivity|].
  split; [vm_compute; reflexivity|].
  split; [apply signup_raises|reflexivity].
Qed.

(** C10 (the code departs from the claim).  The handler does not look at
    the shape of the email, but it stores none: on [two_activities] the
    sign-up of the empty string for "Open Mic", which exists, has no
    capacity and does not have it signed up, ends in the
    InvalidRequestError of the activity lookup and inserts nothing. *)
Theorem signup_empty_email_raises (env : Env) :
  exists a,
    filter (named "Open Mic") (activity two_activities) = [a] /\
    filter (signed_up a "") (participant two_activities) = [] /\
    Activity.max_participants a = None /\
    signup_for_activity env "Open Mic" "" two_activities
    = (two_activities, inl InvalidRequestError).
Proof.
  eexists. split; [vm_compute; reflexivity|].
  repeat split; try apply signup_raises; vm_compute; reflexivity.
Qed.

(** ** Unregister *)

(** C5 (the code departs from the claim).  On [two_activities] none of
    the three cases is told apart: the unregister from "Chess", which
    does not exist, the unregister of bob@ from "Open Mic", for which he
    is not signed up, and the unregister of ann@ from "Book Club", for
    which she is, all end in the InvalidRequestError of the activity
    lookup, status 500, and the row of ann@ is not deleted. *)
Theorem unregister_raises_in_each_case :
  (~ In "Chess"%string (map Activity.name (activity two_activities)) /\
   unregister_from_activity "Chess" "ann@mergington.edu" two_activities
   = (two_activities, inl InvalidRequestError))
  /\
  (exists a,
     filter (named "Open Mic") (activity two_activities) = [a] /\
     filter (signed_up a "bob@mergington.edu") (participant two_activities)
     = [] /\
     unregister_from_activity "Open Mic" "bob@mergington.edu" two_activities
     = (two_activities, inl InvalidRequestError))
  /\
  (exists a p,
     filter (named "Book Club") (activity two_activities) = [a] /\
     filter (signed_up a "ann@mergington.edu") (participant two_activities)
     = [p] /\
     unregister_from_activity "Book Club" "ann@mergington.edu" two_activities
     = (two_activities, inl InvalidRequestError) /\
     In p (participant
             (fst (unregister_from_activity "Book Club" "ann@mergington.edu"
                     two_activities))))
  /\
  http_status InvalidRequestError = 500.
Proof.
  split; [|split; [|split]].
  - split; [simpl; intuition discriminate|apply unregister_raises].
  - eexists. split; [vm_compute; reflexivity|].
    split; [vm_compute; reflexivity|apply unregister_raises].
  - do 2 eexists. split; [vm_compute; reflexivity|].
    split; [vm_compute; reflexivity|].
    split; [apply unregister_raises|].
    rewrite unregister_raises. simpl. auto.
  - reflexivity.
Qed.


(** ** Startup and listing *)

(** C7 (the code departs from the claim).  A first start on a database
    without schema, or with two empty tables, creates the schema and
    ends in the InvalidRequestError of the emptiness test: no activity
    and no participant is seeded.  The listing on the store it leaves
    ends in the same exception, status 500, and returns no activity. *)
Theorem first_start_raises (env : nat -> Env) (db : Database) :
  create_db_and_tables db = mkStore [] [] ->
  on_startup env db = (mkStore [] [], inl InvalidRequestError) /\
  get_activities (fst (on_startup env db))
  = (mkStore [] [], inl InvalidRequestError) /\
  http_status InvalidRequestError = 500.
Proof.
  intros Hempty. rewrite on_startup_raises, Hempty.
  split; [reflexivity|]. split; [apply get_activities_raises|reflexivity].
Qed.

Lemma first_start_raises_witness :
  on_startup (fun _ => noon) NoSchema
  = (mkStore [] [], inl InvalidRequestError) /\
  get_activities (fst (on_startup (fun _ => noon) NoSchema))
  = (mkStore [] [], inl InvalidRequestError) /\
  http_status InvalidRequestError = 500.
Proof.
  apply first_start_raises. reflexivity.
Defined.

(** C8.  Startup creates the schema in every run and migrates the legacy
    activities only into an empty activity table: on a store that holds
    at least one activity it leaves both tables exactly as they were. *)
Theorem startup_keeps_populated_store (env : nat -> Env) (st : Store) :
  activity st <> [] ->
  fst (on_startup env (Schema st)) = st /\
  activity (fst (on_startup env (Schema st))) = activity st /\
  participant (fst (on_startup env (Schema st))) = participant st.
Proof.
  intros Hne.
  unfold on_startup, migrate_if_empty, exec_activity, lift, bind,
    ScalarResult.first.
  simpl create_db_and_tables.
  destruct configure_mappers as [e|[]]; [repeat split; reflexivity|].
  cbv beta iota.
  assert (E : filter (fun _ : Activity.t => true) (activity st) = activity st)
    by (clear Hne; induction (activity st) as [|a rows IH]; simpl; congruence).
  rewrite E. destruct (activity st) as [|a rows] eqn:Erows; [contradiction|].
  unfold ret. cbn [hd_error fst]. auto.
Qed.

Lemma startup_keeps_populated_store_witness :
  fst (on_startup (fun _ => noon) (Schema two_activities)) = two_activities /\
  activity (fst (on_startup (fun _ => noon) (Schema two_activities)))
  = activity two_activities /\
  participant (fst (on_startup (fun _ => noon) (Schema two_activities)))
  = participant two_activities.
Proof.
  apply startup_keeps_populated_store. simpl. discriminate.
Defined.

(** ** The capacity invariant *)

(** C9.  Started on a database whose store respects the capacities, as
    an empty one does, the application only reaches stores that respect
    them: after startup and after any sequence of restarts, listings,
    sign-ups and unregistrations, each activity with a capacity has at
    most that many participant rows. *)
Theorem capacity_never_exceeded (db : Database) (st : Store) :
  within_capacity (create_db_and_tables db) ->
  reachable db st -> within_capacity st.
Proof.
  intros Hstart Hreach.
  induction Hreach as [env|env st _ IH|st _ IH|env n e st _ IH|n e st _ IH].
  - rewrite on_startup_raises. exact Hstart.
  - rewrite on_startup_raises. exact IH.
  - rewrite get_activities_raises. exact IH.
  - rewrite signup_raises. exact IH.
  - rewrite unregister_raises. exact IH.
Qed.

Lemma capacity_never_exceeded_witness :
  within_capacity
    (fst (signup_for_activity noon "Open Mic" "cy@mergington.edu"
            (fst (unregister_from_activity "Book Club" "ann@mergington.edu"
                    (fst (on_startup (fun _ => noon)
                            (Schema two_activities))))))).
Proof.
  apply (capacity_never_exceeded (Schema two_activities)).
  - apply within_capacityb_sound. vm_compute. reflexivity.
  - apply reach_signup. apply reach_unregister. apply reach_start.
Defined.

(** * Further properties *)

(** X2.  Every request ends in the InvalidRequestError of its first
    query and commits nothing: on every store and for every input the
    listing, the sign-up and the unregister leave the store as it was. *)
Theorem requests_raise_and_commit_nothing (env : Env)
    (activity_name email : string) (st : Store) :
  get_activities st = (st, inl InvalidRequestError) /\
  signup_for_activity env activity_name email st
  = (st, inl InvalidRequestError) /\
  unregister_from_activity activity_name email st
  = (st, inl InvalidRequestError).
Proof.
  split; [apply get_activities_raises|].
  split; [apply signup_raises|apply unregister_raises].
Qed.

(** X13.  Startup, on every database, creates the schema, ends in the
    InvalidRequestError of its emptiness test and neither inserts,
    deletes nor rewrites a row: a database that had the tables keeps
    them as they were, one that had none gets two empty tables. *)
Theorem startup_only_creates_schema (env : nat -> Env) (db : Database) :
  on_startup env db = (create_db_and_tables db, inl InvalidRequestError) /\
  match db with
  | NoSchema => fst (on_startup env db) = mkStore [] []
  | Schema st => fst (on_startup env db) = st
  end.
Proof.
  rewrite on_startup_raises. split; [reflexivity|].
  destruct db; reflexivity.
Qed.

(** X14.  Startup is idempotent: a restart on the store a startup left
    leaves the same store and ends the same way, whatever database the
    first startup found. *)
Theorem startup_idempotent (env env' : nat -> Env) (db : Database) :
  on_startup env' (Schema (fst (on_startup env db))) = on_startup env db.
Proof.
  rewrite !on_startup_raises. reflexivity.
Qed.

(** X10.  Started on a database [db], the application only reaches the
    store the schema creation left: no sequence of restarts, listings,
    sign-ups and unregistrations changes a row. *)
Theorem reachable_store_is_initial (db : Database) (st : Store) :
  reachable db st -> st = create_db_and_tables db.
Proof.
  induction 1 as [env|env st _ IH|st _ IH|env n e st _ IH|n e st _ IH].
  - rewrite on_startup_raises. reflexivity.
  - rewrite on_startup_raises. exact IH.
  - rewrite get_activities_raises. exact IH.
  - rewrite signup_raises. exact IH.
  - rewrite unregister_raises. exact IH.
Qed.

Lemma reachable_store_is_initial_witness :
  fst (unregister_from_activity "Book Club" "ann@mergington.edu"
         (fst (on_startup (fun _ => noon) (Schema two_activities))))
  = create_db_and_tables (Schema two_activities).
Proof.
  apply reachable_store_is_initial.
  apply reach_unregister. apply reach_start.
Defined.
